(** * Projects, memberships and usage reporting: a shallow embedding

    This development embeds the project model ([src/project.py]), the public
    project view set ([src/viewset/project.py]) and the admin project
    serializer ([src/serializers/project.py]) and proves properties of them.

    Conventions of the embedding:
    - a queryset is the list of the rows it would return; a filter that spans
      a to-many relation is the SQL inner join, so a project is repeated once
      per matching related row until [distinct] is applied;
    - methods with effects run in the monad [M], which threads a [World]
      (database tables, cache, clock, log of collaborator calls) and may
      raise a Python exception;
    - the collaborators of [core.services] are not part of the embedded
      sources: the OpenStack client is a section variable, the provisioning
      service is observed through the events it receives. *)

From Stdlib Require Import ZArith List Bool Lia.
From stdpp Require Import base decidable option list gmap strings pretty.

#[local] Set Warnings "-clear-no-such-hyp".

Local Open Scope Z_scope.
Local Open Scope string_scope.

(** ** Python outcomes *)

(** What a Python call can raise. [except Exception] catches the instances of
    [Exception] only; [KeyboardInterrupt], [SystemExit] and [GeneratorExit]
    derive from [BaseException] directly. *)
Inductive raised : Type :=
  | PyException (cls : string)
  | PyBaseException (cls : string).

Inductive result (A : Type) : Type :=
  | Ok (a : A)
  | Raise (e : raised).
Arguments Ok {A} a.
Arguments Raise {A} e.

Definition KeyError : raised := PyException "KeyError".
Definition TypeError : raised := PyException "TypeError".
Definition MultipleObjectsReturned : raised := PyException "MultipleObjectsReturned".
Definition IntegrityError : raised := PyException "IntegrityError".

#[global] Instance raised_eq_dec : EqDecision raised.
Proof. solve_decision. Defined.

(** ** Data model *)

(** [Project] (src/project.py, 35-63): the columns the embedded code reads or
    writes. [organization] is a nullable foreign key; an empty [openstack_id]
    is the unprovisioned project ([blank=True]). *)
Record Project : Type := mkProject {
  project_id : Z;
  organization : option Z;
  name : string;
  description : string;
  openstack_id : string;
  enabled : bool;
  has_public_co2_reporting : bool;
  gardener_enabled : bool
}.

#[global] Instance Project_eq_dec : EqDecision Project.
Proof. solve_decision. Defined.

(** [ProjectMembership.ROLE_CHOICES] (src/project.py, 249-256). *)
Inductive Role : Type := ADMIN | WRITE | READ.

#[global] Instance Role_eq_dec : EqDecision Role.
Proof. solve_decision. Defined.

(** [ProjectMembership] (src/project.py, 241-267). [membership_id] is [None]
    for an instance that has not been saved yet. *)
Record ProjectMembership : Type := mkMembership {
  membership_id : option Z;
  project : Z;
  team : Z;
  role : Role
}.

#[global] Instance ProjectMembership_eq_dec : EqDecision ProjectMembership.
Proof. solve_decision. Defined.

(** Modelled from the spec: the organization-membership table behind the
    lookup [organization__organization_memberships__user] (its model is not
    among the embedded sources). *)
Record OrganizationMembership : Type := mkOrgMembership {
  om_organization : Z;
  om_user : Z
}.

(** Modelled from the spec: the user model, as far as the querysets read it:
    [user.organizations.all()], [user.teams.all()], [user.has_perm(perm)] and
    [user.is_admin]. *)
Record User : Type := mkUser {
  user_id : Z;
  organizations : list Z;
  teams : list Z;
  has_perm : string -> bool;
  is_admin : bool
}.

(** The tables. [project_seq] and [membership_seq] are the last primary keys
    the project and membership tables handed out (keys of deleted rows are
    not handed out again). *)
Record Database : Type := mkDatabase {
  projects : list Project;
  project_seq : Z;
  memberships : list ProjectMembership;
  membership_seq : Z;
  organization_memberships : list OrganizationMembership
}.

(** ** Querysets (src/project.py, 20-32) *)

Module ProjectQuerySet.

(** [.distinct()] : SELECT DISTINCT over the project columns. *)
Definition distinct (qs : list Project) : list Project := remove_dups qs.

(** [organization__in=orgs] : a NULL organization matches nothing. *)
Definition organization_in (orgs : list Z) (p : Project) : Prop :=
  match organization p with
  | Some o => o ∈ orgs
  | None => False
  end.

#[global] Instance organization_in_dec orgs p : Decision (organization_in orgs p).
Proof. unfold organization_in. destruct (organization p); apply _. Defined.

(** The membership rows that join project [p] to one of [ts]. *)
Definition joins_team (ts : list Z) (p : Project) (m : ProjectMembership) : Prop :=
  project m = project_id p ∧ team m ∈ ts.

#[global] Instance joins_team_dec ts p m : Decision (joins_team ts p m).
Proof. unfold joins_team. apply _. Defined.

(** [.filter(teams__in=ts)] : inner join with the membership table, one row
    per matching membership. *)
Definition filter_teams_in (db : Database) (ts : list Z) (qs : list Project)
  : list Project :=
  p ← qs; m ← filter (joins_team ts p) (memberships db); [p].

Definition can_manage_all : string := "core.can_manage_all_organization_projects".

Definition for_user (db : Database) (user : User) : list Project :=
  let query_set := filter (organization_in (organizations user)) (projects db) in
  if has_perm user can_manage_all
  then distinct query_set
  else distinct (filter_teams_in db (teams user) query_set).

(** The organization-membership rows that make [u] an owner of [p]'s
    organization. *)
Definition joins_owner (uid : Z) (p : Project) (om : OrganizationMembership) : Prop :=
  organization p = Some (om_organization om) ∧ om_user om = uid.

#[global] Instance joins_owner_dec uid p om : Decision (joins_owner uid p om).
Proof. unfold joins_owner. apply _. Defined.

Definition for_user_is_owner_of_organization (db : Database) (user : User)
  : list Project :=
  distinct (p ← projects db;
            om ← filter (joins_owner (user_id user) p) (organization_memberships db);
            [p]).

End ProjectQuerySet.

(** ** The public view set (src/viewset/project.py, 29-33) *)

Module ProjectViewSet.

Definition get_queryset (db : Database) (user : User) : list Project :=
  if is_admin user
  then projects db
  else ProjectQuerySet.for_user_is_owner_of_organization db user.

End ProjectViewSet.

(** ** Dates (the fields of Python's [datetime] that the code touches) *)

Record datetime : Type := mkDatetime {
  year : Z;
  month : Z;
  day : Z;
  hour : Z;
  minute : Z;
  second : Z;
  microsecond : Z
}.

#[global] Instance datetime_eq_dec : EqDecision datetime.
Proof. solve_decision. Defined.

(** [d.replace(day=1, hour=0, minute=0, second=0)]: [replace] rebuilds the
    value from the fields of [d], with the named ones overridden. *)
Definition replace_day_hour_minute_second (d : datetime) (dd h mi s : Z) : datetime :=
  {| year := year d; month := month d; day := dd;
     hour := h; minute := mi; second := s; microsecond := microsecond d |}.

(** [d.replace(hour=0, minute=0, second=0)]. *)
Definition replace_hour_minute_second (d : datetime) (h mi s : Z) : datetime :=
  {| year := year d; month := month d; day := day d;
     hour := h; minute := mi; second := s; microsecond := microsecond d |}.

(** [%b] in the C locale. *)
Definition month_abbr (m : Z) : string :=
  match m with
  | 1 => "Jan" | 2 => "Feb" | 3 => "Mar" | 4 => "Apr"
  | 5 => "May" | 6 => "Jun" | 7 => "Jul" | 8 => "Aug"
  | 9 => "Sep" | 10 => "Oct" | 11 => "Nov" | 12 => "Dec"
  | _ => ""
  end.

(** [%d]: the day of the month on two digits. *)
Definition two_digits (n : Z) : string :=
  if decide (n < 10) then "0" +:+ pretty n else pretty n.

(** [d.strftime("%Y-%b-%d")]. *)
Definition strftime_Y_b_d (d : datetime) : string :=
  pretty (year d) +:+ "-" +:+ month_abbr (month d) +:+ "-" +:+ two_digits (day d).

(** ** Usage records *)

(** The values found in a usage record, as far as the embedding goes:
    integers and strings. Python's [sum] also adds floats and booleans; they
    are outside the embedding, and no statement below depends on their
    absence. *)
Inductive PyVal : Type :=
  | PInt (z : Z)
  | PStr (s : string).

#[global] Instance PyVal_eq_dec : EqDecision PyVal.
Proof. solve_decision. Defined.

(** A usage record is a Python dict; the raw usage is a list of them. *)
Abbreviation UsageItem := (gmap string PyVal).
Abbreviation UsageList := (list (gmap string PyVal)).

(** The dict built by [usage_summary]. *)
Record UsageSummary : Type := mkSummary {
  total : Z;
  ram : Z;
  vcpus : Z
}.

#[global] Instance UsageSummary_eq_dec : EqDecision UsageSummary.
Proof. solve_decision. Defined.

(** [item[key]]. *)
Definition getitem (item : UsageItem) (key : string) : result PyVal :=
  match item !! key with
  | Some v => Ok v
  | None => Raise KeyError
  end.

(** The local function [filter_active] (src/project.py, 131-133): the item
    itself when its state is ["active"], and [None] (the implicit return)
    otherwise. *)
Definition filter_active (item : UsageItem) : result (option UsageItem) :=
  match getitem item "state" with
  | Ok v => if decide (v = PStr "active") then Ok (Some item) else Ok None
  | Raise e => Raise e
  end.

(** [list(map(f, l))] for an [f] that may raise. *)
Fixpoint list_map {A B : Type} (f : A -> result B) (l : list A) : result (list B) :=
  match l with
  | [] => Ok []
  | x :: l' =>
      match f x with
      | Raise e => Raise e
      | Ok y =>
          match list_map f l' with
          | Raise e => Raise e
          | Ok ys => Ok (y :: ys)
          end
      end
  end.

(** [acc + v] inside [sum]: adding a string to a number is a [TypeError]. *)
Definition py_add (acc : Z) (v : PyVal) : result Z :=
  match v with
  | PInt z => Ok (acc + z)
  | PStr _ => Raise TypeError
  end.

(** [sum(s[key] for s in l if s)], from accumulator [acc]: entries that are
    [None] are skipped (a returned item holds the key ["state"], so it is
    never the empty, falsy dict). *)
Fixpoint sum_field (key : string) (l : list (option UsageItem)) (acc : Z) : result Z :=
  match l with
  | [] => Ok acc
  | None :: l' => sum_field key l' acc
  | Some s :: l' =>
      match getitem s key with
      | Raise e => Raise e
      | Ok v =>
          match py_add acc v with
          | Raise e => Raise e
          | Ok acc' => sum_field key l' acc'
          end
      end
  end.

(** The body of [usage_summary] after the call to [get_compute_usage]
    (src/project.py, 128-144). [server_usages] is [None] when that call
    returned [None]. *)
Definition summarize (server_usages : option UsageList) : result (option UsageSummary) :=
  match server_usages with
  | None | Some [] => Ok None
  | Some raw =>
      match list_map filter_active raw with
      | Raise e => Raise e
      | Ok mapped =>
          match mapped with
          | [] => Ok None
          | _ :: _ =>
              match sum_field "memory_mb" mapped 0 with
              | Raise e => Raise e
              | Ok r =>
                  match sum_field "vcpus" mapped 0 with
                  | Raise e => Raise e
                  | Ok v =>
                      Ok (Some {| total := Z.of_nat (length mapped); ram := r; vcpus := v |})
                  end
              end
          end
      end
  end.

(** ** The world the methods run in *)

(** The tenant object returned by the OpenStack client. *)
Record Tenant : Type := mkTenant {
  tenant_id : string;
  tenant_enabled : bool
}.

(** The collaborator calls and log records a method leaves behind, oldest
    first. Provisioning calls carry the primary key of the project passed. *)
Inductive Event : Type :=
  | LogWarning (msg : string)
  | OpenstackCreateProject (project_name : string)
  | OpenstackGetProject (tenant : string)
  | OpenstackComputeUsage (tenant : string) (start end_ : datetime)
  | GardenerSaveProject (pk : Z)
  | GardenerDeleteProject (pk : Z).

#[global] Instance Event_eq_dec : EqDecision Event.
Proof. solve_decision. Defined.

(** Calls to the tenant/infrastructure collaborator. *)
Definition is_openstack_call (e : Event) : bool :=
  match e with
  | OpenstackCreateProject _ | OpenstackGetProject _ | OpenstackComputeUsage _ _ _ => true
  | _ => false
  end.


(** [cache_store] holds, per key, the cached value and the instant at which
    it expires; [time] is [time.time()] and [now] is [datetime.now()], both
    moved by the environment between two operations. *)
Record World : Type := mkWorld {
  db : Database;
  cache_store : gmap string (UsageList * Z);
  time : Z;
  now : datetime;
  trace : list Event
}.

Definition set_db (d : Database) (w : World) : World :=
  {| db := d; cache_store := cache_store w; time := time w; now := now w; trace := trace w |}.

Definition set_cache_store (c : gmap string (UsageList * Z)) (w : World) : World :=
  {| db := db w; cache_store := c; time := time w; now := now w; trace := trace w |}.

Definition set_trace (t : list Event) (w : World) : World :=
  {| db := db w; cache_store := cache_store w; time := time w; now := now w; trace := t |}.

(** The environment moving the clocks between two requests. *)
Definition set_clock (t : Z) (n : datetime) (w : World) : World :=
  {| db := db w; cache_store := cache_store w; time := t; now := n; trace := trace w |}.

Definition set_memberships (ms : list ProjectMembership) (d : Database) : Database :=
  {| projects := projects d; project_seq := project_seq d;
     memberships := ms; membership_seq := membership_seq d;
     organization_memberships := organization_memberships d |}.

Definition set_membership_seq (n : Z) (d : Database) : Database :=
  {| projects := projects d; project_seq := project_seq d;
     memberships := memberships d; membership_seq := n;
     organization_memberships := organization_memberships d |}.

Definition set_projects (ps : list Project) (d : Database) : Database :=
  {| projects := ps; project_seq := project_seq d;
     memberships := memberships d; membership_seq := membership_seq d;
     organization_memberships := organization_memberships d |}.


(** ** The monad of methods: state passing with exceptions *)

Definition M (A : Type) : Type := World -> result A * World.

Definition ret {A : Type} (a : A) : M A := fun w => (Ok a, w).

Definition raise {A : Type} (e : raised) : M A := fun w => (Raise e, w).

Definition bind {A B : Type} (m : M A) (k : A -> M B) : M B :=
  fun w =>
    match m w with
    | (Ok a, w') => k a w'
    | (Raise e, w') => (Raise e, w')
    end.

Declare Scope py_scope.
Delimit Scope py_scope with py.
Notation "'let!' x ':=' m 'in' k" := (bind m (fun x => k))
  (at level 10, x name, m at level 100, k at level 200) : py_scope.
Notation "m '>>>' k" := (bind m (fun _ => k))
  (at level 100, k at level 200, right associativity) : py_scope.
Local Open Scope py_scope.

(** [try: body / except Exception: handler]. *)
Definition try_except_Exception {A : Type} (body handler : M A) : M A :=
  fun w =>
    match body w with
    | (Raise (PyException _), w') => handler w'
    | r => r
    end.

(** A pure computation that may raise. *)
Definition lift {A : Type} (r : result A) : M A := fun w => (r, w).

Definition emit (e : Event) : M unit :=
  fun w => (Ok tt, set_trace (trace w ++ [e])%list w).

Definition get_db : M Database := fun w => (Ok (db w), w).

Definition put_db (d : Database) : M unit := fun w => (Ok tt, set_db d w).

(** [for x in l: body(x)]. *)
Fixpoint for_each {A : Type} (l : list A) (body : A -> M unit) : M unit :=
  match l with
  | [] => ret tt
  | x :: l' => body x >>> for_each l' body
  end.

(** [datetime.now()]. *)
Definition datetime_now : M datetime := fun w => (Ok (now w), w).

(** [logger.warning(msg)]. *)
Definition logger_warning (msg : string) : M unit := emit (LogWarning msg).

(** Modelled from the spec: the cache (UsageCache, 4.1), with the contract of
    [django.core.cache]: [get] answers [None] for a missing or expired key,
    [set] stores the value until [timeout] seconds from now. *)
Definition cache_get (key : string) : M (option UsageList) :=
  fun w =>
    match cache_store w !! key with
    | Some (v, expires) => if decide (time w < expires) then (Ok (Some v), w) else (Ok None, w)
    | None => (Ok None, w)
    end.

Definition cache_set (key : string) (value : UsageList) (timeout : Z) : M unit :=
  fun w => (Ok tt, set_cache_store (<[key := (value, time w + timeout)]> (cache_store w)) w).

(** The provisioning service ([GardenerService]), seen through its calls. *)
Definition GardenerService_save_project (p : Z) : M unit := emit (GardenerSaveProject p).

Definition GardenerService_delete_project (p : Z) : M unit := emit (GardenerDeleteProject p).

(** ** The OpenStack client *)

(** The client of [core.services.openstack]: what each call answers. One
    call stands for [Openstack().method(...)], construction included. The
    usage source is asked at a given instant ([time]), so its answer may
    change from one call to the next. *)
Record Openstack : Type := mkOpenstack {
  os_create_project : string -> result Tenant;
  os_get_project : string -> result Tenant;
  os_get_compute_usage_for_project : string -> datetime -> datetime -> Z -> result UsageList
}.

Section Methods.

Variable os : Openstack.

(** [settings.REPORTING_CACHE_TIMEOUT], in seconds. *)
Variable REPORTING_CACHE_TIMEOUT : Z.

Definition Openstack_create_project (project_name : string) : M Tenant :=
  emit (OpenstackCreateProject project_name) >>>
  lift (os_create_project os project_name).

Definition Openstack_get_project (tenant : string) : M Tenant :=
  emit (OpenstackGetProject tenant) >>>
  lift (os_get_project os tenant).

Definition Openstack_get_compute_usage_for_project
    (tenant : string) (start end_ : datetime) : M UsageList :=
  emit (OpenstackComputeUsage tenant start end_) >>>
  (fun w => (os_get_compute_usage_for_project os tenant start end_ (time w), w)).

(** *** [Project] methods (src/project.py) *)

(** [super().save()]: the row with this primary key is replaced, or the row
    is added when there is none. *)
Definition save_project_row (self : Project) (rows : list Project) : list Project :=
  if decide (Exists (fun p => project_id p = project_id self) rows)
  then (fun p => if decide (project_id p = project_id self) then self else p) <$> rows
  else (rows ++ [self])%list.

(** Another stored project holds the name of [self]: [name] is declared
    [unique=True] (41-46), so the database refuses the write. *)
Definition name_taken (self : Project) (rows : list Project) : Prop :=
  Exists (fun p => name p = name self ∧ project_id p <> project_id self) rows.

#[global] Instance name_taken_dec self rows : Decision (name_taken self rows).
Proof. unfold name_taken. apply _. Defined.

(** The key of [self] is already stored. *)
Definition key_stored (self : Project) (rows : list Project) : Prop :=
  Exists (fun p => project_id p = project_id self) rows.

#[global] Instance key_stored_dec self rows : Decision (key_stored self rows).
Proof. unfold key_stored. apply _. Defined.

(** [super().save(force_insert=...)]: the write is refused with
    [IntegrityError] when the name is held by another row, or when an insert
    is forced under a key that is stored; otherwise the row is written.
    Column lengths are not checked. *)
Definition Model_save_project (force_insert : bool) (self : Project) : M unit :=
  let! d := get_db in
  if decide (name_taken self (projects d)) then raise IntegrityError
  else if decide (force_insert = true ∧ key_stored self (projects d))
       then raise IntegrityError
       else put_db (set_projects (save_project_row self (projects d)) d).

(** [Project.save] (79-85), with the [force_insert] it hands on to
    [super().save]. *)
Definition Project_save_kwargs (force_insert : bool) (self : Project)
    (save_to_gardener : bool) : M Project :=
  Model_save_project force_insert self >>>
  (if save_to_gardener then GardenerService_save_project (project_id self) else ret tt) >>>
  ret self.

(** [self.save(save_to_gardener=...)]. *)
Definition Project_save (self : Project) (save_to_gardener : bool) : M Project :=
  Project_save_kwargs false self save_to_gardener.

(** The default window of [get_compute_usage] (102-105). *)
Definition default_start (n : datetime) : datetime :=
  replace_day_hour_minute_second n 1 0 0 0.

Definition default_end (n : datetime) : datetime :=
  replace_hour_minute_second n 0 0 0.

(** The cache key (107-111). *)
Definition compute_usage_cache_key (tenant : string) (start end_ : datetime) : string :=
  "compute_usage." +:+ tenant +:+ "." +:+ strftime_Y_b_d start +:+ "-" +:+ strftime_Y_b_d end_.

(** [Project.get_compute_usage] (99-123). A [datetime] is always truthy, so
    [not start] holds exactly when no start was passed. *)
Definition get_compute_usage (self : Project) (start end_ : option datetime)
  : M (option UsageList) :=
  let! start :=
    match start with
    | Some s => ret s
    | None => let! n := datetime_now in ret (default_start n)
    end in
  let! end_ :=
    match end_ with
    | Some e => ret e
    | None => let! n := datetime_now in ret (default_end n)
    end in
  let cache_key := compute_usage_cache_key (openstack_id self) start end_ in
  if decide (openstack_id self = "") then ret None
  else
    let! result := cache_get cache_key in
    match result with
    | Some r => ret (Some r)
    | None =>
        let! result :=
          Openstack_get_compute_usage_for_project (openstack_id self) start end_ in
        cache_set cache_key result REPORTING_CACHE_TIMEOUT >>>
        ret (Some result)
    end.

(** [Project.usage_summary] (125-144). *)
Definition usage_summary (self : Project) (start end_ : option datetime)
  : M (option UsageSummary) :=
  let! server_usages := get_compute_usage self start end_ in
  lift (summarize server_usages).

(** The warning of [create_openstack_project] (175-176). *)
Definition already_provisioned_message (self : Project) : string :=
  "Project '" +:+ name self +:+ "' already has an OpenStack ID: "
  +:+ openstack_id self +:+ ". No new project will be created.".

Definition set_openstack_id (self : Project) (i : string) : Project :=
  {| project_id := project_id self; organization := organization self;
     name := name self; description := description self; openstack_id := i;
     enabled := enabled self;
     has_public_co2_reporting := has_public_co2_reporting self;
     gardener_enabled := gardener_enabled self |}.

(** [Project.create_openstack_project] (172-183): the project object after
    the call, and the value returned. *)
Definition create_openstack_project (self : Project) : M (Project * option Tenant) :=
  if decide (openstack_id self <> "") then
    logger_warning (already_provisioned_message self) >>>
    ret (self, None)
  else
    let! os_project := Openstack_create_project (name self) in
    let self := set_openstack_id self (tenant_id os_project) in
    let! self := Project_save self true in
    ret (self, Some os_project).

(** [Project.enabled_on_openstack] (228-233). *)
Definition enabled_on_openstack (self : Project) : M bool :=
  try_except_Exception
    (let! t := Openstack_get_project (openstack_id self) in ret (tenant_enabled t))
    (ret false).

End Methods.

(** ** [ProjectMembership] (src/project.py, 241-278) *)

Definition set_membership_id (m : ProjectMembership) (pk : Z) : ProjectMembership :=
  {| membership_id := Some pk; project := project m; team := team m; role := role m |}.

Definition set_role (m : ProjectMembership) (r : Role) : ProjectMembership :=
  {| membership_id := membership_id m; project := project m; team := team m; role := r |}.

(** [super().save()]: an instance without primary key is inserted under the
    next key of the sequence; otherwise its row is replaced, or added when
    there is none. The instance as saved, and the database after. *)
Definition save_membership_row (self : ProjectMembership) (d : Database)
  : ProjectMembership * Database :=
  match membership_id self with
  | None =>
      let pk := membership_seq d + 1 in
      let self' := set_membership_id self pk in
      (self', set_membership_seq pk (set_memberships (memberships d ++ [self'])%list d))
  | Some pk =>
      if decide (Exists (fun m => membership_id m = Some pk) (memberships d))
      then (self,
            set_memberships
              ((fun m => if decide (membership_id m = Some pk) then self else m)
                 <$> memberships d) d)
      else (self, set_memberships (memberships d ++ [self])%list d)
  end.

(** [ProjectMembership.save] (269-273). *)
Definition ProjectMembership_save (self : ProjectMembership) : M ProjectMembership :=
  let! d := get_db in
  let saved := save_membership_row self d in
  put_db (snd saved) >>>
  GardenerService_save_project (project (fst saved)) >>>
  ret (fst saved).

(** The [post_delete] receiver [delete_project_membership] (276-278). *)
Definition delete_project_membership (instance : ProjectMembership) : M unit :=
  GardenerService_delete_project (project instance).

(** [instance.delete()] on a stored instance (one that has a primary key):
    the row goes, then [post_delete] is sent. *)
Definition ProjectMembership_delete (self : ProjectMembership) : M unit :=
  let! d := get_db in
  put_db (set_memberships
            (filter (fun m => membership_id m <> membership_id self) (memberships d)) d) >>>
  delete_project_membership self.

(** The key the deletion collector sorts a stored membership by. *)
Definition membership_key (m : ProjectMembership) : Z := default 0 (membership_id m).

(** [sorted(instances, key=attrgetter("pk"))], a stable sort. *)
Fixpoint insert_by_key (x : ProjectMembership) (l : list ProjectMembership)
  : list ProjectMembership :=
  match l with
  | [] => [x]
  | y :: l' =>
      if decide (membership_key x <= membership_key y)
      then x :: y :: l'
      else y :: insert_by_key x l'
  end.

Definition sorted_by_key (l : list ProjectMembership) : list ProjectMembership :=
  foldr insert_by_key [] l.

(** The order in which the deletion collector sends [post_delete]: it sorts
    the collected instances by primary key and reverses them, so the newest
    row comes first. *)
Definition post_delete_order (l : list ProjectMembership) : list ProjectMembership :=
  reverse (sorted_by_key l).

(** [queryset.delete()] for the rows selected by [sel]: the rows go, then
    [post_delete] is sent once per deleted instance, in the collector's
    order. *)
Definition ProjectMembership_queryset_delete
    (sel : ProjectMembership -> Prop) `{forall m, Decision (sel m)} : M unit :=
  let! d := get_db in
  put_db (set_memberships (filter (fun m => ~ sel m) (memberships d)) d) >>>
  for_each (post_delete_order (filter sel (memberships d))) delete_project_membership.

(** ** The admin serializer (src/serializers/project.py) *)

(** One entry of the incoming [teams] list, after validation. *)
Record TeamData : Type := mkTeamData {
  td_team : Z;
  td_role : option Role
}.

(** [validated_data]: the writable fields that were sent. *)
Record ValidatedData : Type := mkValidatedData {
  vd_name : option string;
  vd_has_public_co2_reporting : option bool;
  vd_gardener_enabled : option bool;
  vd_project_membership : option (list TeamData)
}.

Definition apply_validated_data (instance : Project) (vd : ValidatedData) : Project :=
  {| project_id := project_id instance; organization := organization instance;
     name := default (name instance) (vd_name vd);
     description := description instance; openstack_id := openstack_id instance;
     enabled := enabled instance;
     has_public_co2_reporting :=
       default (has_public_co2_reporting instance) (vd_has_public_co2_reporting vd);
     gardener_enabled := default (gardener_enabled instance) (vd_gardener_enabled vd) |}.

(** [ModelSerializer.update]: every sent attribute is set, then
    [instance.save()]. *)
Definition ModelSerializer_update (instance : Project) (vd : ValidatedData) : M Project :=
  Project_save (apply_validated_data instance vd) true.

(** The rows kept by
    [exclude(project=instance, team__in=teams)]: all but those that are both
    of [instance] and of one of [teams]. *)
Definition excluded (pid : Z) (ts : list Z) (m : ProjectMembership) : Prop :=
  ~ (project m = pid ∧ team m ∈ ts).

#[global] Instance excluded_dec pid ts m : Decision (excluded pid ts m).
Proof. unfold excluded. apply _. Defined.

(** [ProjectMembership.objects.update_or_create(project=, team=, defaults=)]:
    the only row for the pair gets the defaults and is saved; with no such
    row one is created ([role] defaults to [ADMIN]); several rows are an
    error. *)
Definition update_or_create (pid : Z) (t : Z) (defaults : option Role) : M unit :=
  let! d := get_db in
  match filter (fun m => project m = pid ∧ team m = t) (memberships d) with
  | [] =>
      ProjectMembership_save
        {| membership_id := None; project := pid; team := t;
           role := default ADMIN defaults |} >>>
      ret tt
  | [m] =>
      ProjectMembership_save (set_role m (default (role m) defaults)) >>>
      ret tt
  | _ :: _ :: _ => raise MultipleObjectsReturned
  end.

(** [ProjectSerializer.update] (24-37). *)
Definition ProjectSerializer_update (instance : Project) (validated_data : ValidatedData)
  : M Project :=
  let teams_data := default [] (vd_project_membership validated_data) in
  let! instance := ModelSerializer_update instance validated_data in
  ProjectMembership_queryset_delete
    (excluded (project_id instance) (td_team <$> teams_data)) >>>
  for_each teams_data
    (fun team_data =>
       update_or_create (project_id instance) (td_team team_data) (td_role team_data)) >>>
  ret instance.

(** ** Proof support *)

(** Unfolds the plumbing of the monad, leaving the state transformer. *)
Ltac py_unfold :=
  unfold bind, ret, raise, lift, emit, get_db, put_db, datetime_now,
    logger_warning, cache_get, cache_set,
    GardenerService_save_project, GardenerService_delete_project in *.

(** ** The specification's reading of visibility *)

(** The visibility rule as the specification words it: the global permission
    alone suffices; otherwise the project's organization is one of the
    user's and one of the project's teams is one of the user's. Compared
    with [ProjectQuerySet.for_user] below. *)
Definition visible_as_specified (d : Database) (u : User) (p : Project) : Prop :=
  has_perm u ProjectQuerySet.can_manage_all = true ∨
  (ProjectQuerySet.organization_in (organizations u) p ∧
   ∃ m, m ∈ memberships d ∧ project m = project_id p ∧ team m ∈ teams u).

(** The items of the raw usage that are active: what the specification's
    summary counts and sums over. *)
Definition active_items (raw : UsageList) : UsageList :=
  filter (fun item => item !! "state" = Some (PStr "active")) raw.

(** ** Concrete inputs *)

Definition alpha : Project :=
  {| project_id := 1; organization := Some 7; name := "alpha"; description := "";
     openstack_id := "tenant-1"; enabled := true;
     has_public_co2_reporting := false; gardener_enabled := false |}.

Definition beta : Project :=
  {| project_id := 2; organization := Some 8; name := "beta"; description := "";
     openstack_id := ""; enabled := true;
     has_public_co2_reporting := false; gardener_enabled := false |}.

(** Team 10 works on both projects, team 11 on [alpha] only. *)
Definition sample_db : Database :=
  {| projects := [alpha; beta];
     project_seq := 2;
     memberships :=
       [ {| membership_id := Some 1; project := 1; team := 10; role := WRITE |};
         {| membership_id := Some 2; project := 2; team := 10; role := READ |};
         {| membership_id := Some 3; project := 1; team := 11; role := READ |} ];
     membership_seq := 3;
     organization_memberships := [ {| om_organization := 7; om_user := 5 |} ] |}.

(** A user of organization 7 who holds the global permission and is in no
    team. *)
Definition manager : User :=
  {| user_id := 5; organizations := [7]; teams := [];
     has_perm := fun perm => bool_decide (perm = ProjectQuerySet.can_manage_all);
     is_admin := false |}.

(** A usage record with the three fields the summary reads. *)
Definition usage_item (state : string) (memory_mb vcpus : Z) : UsageItem :=
  <["state" := PStr state]>
    (<["memory_mb" := PInt memory_mb]> (<["vcpus" := PInt vcpus]> ∅)).

(** One running and one stopped server. *)
Definition mixed_usage : UsageList :=
  [usage_item "active" 512 2; usage_item "shutoff" 1024 4].

(** A single stopped server. *)
Definition stopped_usage : UsageList := [usage_item "shutoff" 1024 4].

(** An OpenStack client whose usage source answers [usage] and whose tenants
    are enabled. *)
Definition openstack_answering (usage : UsageList) : Openstack :=
  {| os_create_project := fun _ => Ok {| tenant_id := "tenant-new"; tenant_enabled := true |};
     os_get_project := fun i => Ok {| tenant_id := i; tenant_enabled := true |};
     os_get_compute_usage_for_project := fun _ _ _ _ => Ok usage |}.

(** An OpenStack client that cannot be reached. *)
Definition openstack_unreachable : Openstack :=
  {| os_create_project := fun _ => Raise (PyException "ConnectionError");
     os_get_project := fun _ => Raise (PyException "ConnectionError");
     os_get_compute_usage_for_project := fun _ _ _ _ => Raise (PyException "ConnectionError") |}.

(** 4 November 2026, 07:31:12.345678. *)
Definition sample_now : datetime :=
  {| year := 2026; month := 11; day := 4;
     hour := 7; minute := 31; second := 12; microsecond := 345678 |}.

Definition sample_world : World :=
  {| db := sample_db; cache_store := ∅; time := 1000; now := sample_now; trace := [] |}.

(** Midnight at the start of a day. *)
Definition midnight (y m d : Z) : datetime :=
  {| year := y; month := m; day := d;
     hour := 0; minute := 0; second := 0; microsecond := 0 |}.

(** Team 10 holds [alpha] with write access; team 30 administers [beta]. *)
Definition two_project_db : Database :=
  {| projects := [alpha; beta];
     project_seq := 2;
     memberships :=
       [ {| membership_id := Some 1; project := 1; team := 10; role := WRITE |};
         {| membership_id := Some 2; project := 2; team := 30; role := ADMIN |} ];
     membership_seq := 2;
     organization_memberships := [] |}.

Definition two_project_world : World :=
  {| db := two_project_db; cache_store := ∅; time := 1000; now := sample_now; trace := [] |}.

(** The update that replaces the teams of a project by team 20, read-only. *)
Definition teams_become_20_read : ValidatedData :=
  {| vd_name := None; vd_has_public_co2_reporting := None; vd_gardener_enabled := None;
     vd_project_membership := Some [ {| td_team := 20; td_role := Some READ |} ] |}.

(** ** Further methods of the project model *)

(** The window [get_compute_usage] works on, given what was passed and the
    clock of the world (src/project.py, 102-105). *)
Definition window_start (start : option datetime) (w : World) : datetime :=
  default (default_start (now w)) start.

Definition window_end (end_ : option datetime) (w : World) : datetime :=
  default (default_end (now w)) end_.

(** A billing plan of a project, as [is_active] reads it: instants are
    seconds, [expiration_time] may be NULL. *)
Record Plan : Type := mkPlan {
  plan_active : bool;
  valid_from : Z;
  expiration_time : option Z
}.

(** One turn of the loop of [is_active] (220-223). *)
Definition is_active_step (now_ : Z) (has_active : bool) (plan : Plan) : bool :=
  match expiration_time plan with
  | None => true
  | Some e => if decide (now_ < e) then true else has_active
  end.

(** [Project.is_active] (211-224) over [plans], the rows of
    [self.plans.all()], with [timezone.now()] read as one instant [now_]. *)
Definition is_active (plans : list Plan) (now_ : Z) : bool :=
  fold_left (is_active_step now_)
    (filter (fun plan => plan_active plan = true ∧ (valid_from plan ≤ now_)%Z) plans)
    false.

(** [Project.get_members] (199-202): [User.objects.filter(teams__projects=self)]
    joins every user with their teams and the memberships of those teams in
    this project; there is no [distinct]. *)
Definition get_members (d : Database) (users : list User) (self : Project) : list User :=
  u ← users;
  t ← teams u;
  m ← filter (fun m => team m = t ∧ project m = project_id self) (memberships d);
  [u].



(** ** Creation through the admin serializer (src/serializers/project.py, 17-22) *)





(** ** Vocabulary of the statements *)

(** The integer under [key], 0 when there is none. *)
Definition int_field (key : string) (item : UsageItem) : Z :=
  match item !! key with
  | Some (PInt z) => z
  | _ => 0
  end.

(** Sum of an integer field over a list of records. *)
Definition field_total (key : string) (items : UsageList) : Z :=
  foldr (fun item acc => int_field key item + acc) 0 items.

(** Every record has a state, and every active record has integer
    [memory_mb] and [vcpus]. *)
Definition well_formed_usage (raw : UsageList) : Prop :=
  ∀ item, item ∈ raw →
    is_Some (item !! "state") ∧
    (item !! "state" = Some (PStr "active") →
     (∃ z, item !! "memory_mb" = Some (PInt z)) ∧ (∃ z, item !! "vcpus" = Some (PInt z))).



(** Every record has a state, and every active record holds, under
    [memory_mb] and under [vcpus], a value that is not a string. *)
Definition has_required_fields (raw : UsageList) : Prop :=
  ∀ item, item ∈ raw →
    is_Some (item !! "state") ∧
    (item !! "state" = Some (PStr "active") →
     (∃ v, item !! "memory_mb" = Some v ∧ ∀ s, v ≠ PStr s) ∧
     (∃ v, item !! "vcpus" = Some v ∧ ∀ s, v ≠ PStr s)).


(** A project without organization, stored with a membership of team 10. *)
Definition orphan : Project :=
  {| project_id := 3; organization := None; name := "orphan"; description := "";
     openstack_id := ""; enabled := true;
     has_public_co2_reporting := false; gardener_enabled := false |}.

Definition orphan_db : Database :=
  {| projects := [alpha; orphan];
     project_seq := 3;
     memberships :=
       [ {| membership_id := Some 1; project := 1; team := 10; role := WRITE |};
         {| membership_id := Some 2; project := 3; team := 10; role := ADMIN |} ];
     membership_seq := 2;
     organization_memberships := [ {| om_organization := 7; om_user := 5 |} ] |}.

(** A holder of the global permission, in organization 7 and team 10. *)
Definition manager_in_team : User :=
  {| user_id := 5; organizations := [7]; teams := [10];
     has_perm := fun perm => bool_decide (perm = ProjectQuerySet.can_manage_all);
     is_admin := false |}.



(** The instants at which a plan counts as running. *)
Definition plan_running (now_ : Z) (plan : Plan) : Prop :=
  plan_active plan = true ∧ (valid_from plan ≤ now_)%Z ∧
  match expiration_time plan with
  | None => True
  | Some e => now_ < e
  end.




(** * Properties *)

(** ** Visibility of projects *)

Section Visibility.

Implicit Types (d : Database) (u : User) (p : Project).

Lemma elem_of_filter_teams_in d ts qs p :
  p ∈ ProjectQuerySet.filter_teams_in d ts qs ↔
  p ∈ qs ∧ ∃ m, m ∈ memberships d ∧ project m = project_id p ∧ team m ∈ ts.
Proof.
  unfold ProjectQuerySet.filter_teams_in. rewrite list_elem_of_bind. split.
  - intros (q & Hin & Hq). apply list_elem_of_bind in Hin as (m & Hp & Hm).
    apply list_elem_of_singleton in Hp as ->.
    apply list_elem_of_filter in Hm as [[Hproj Hteam] Hm]. eauto 6.
  - intros (Hp & m & Hm & Hproj & Hteam). exists p. split; [|done].
    apply list_elem_of_bind. exists m. split; [by apply list_elem_of_singleton|].
    apply list_elem_of_filter. by repeat split.
Qed.

Lemma for_user_NoDup d u : NoDup (ProjectQuerySet.for_user d u).
Proof.
  unfold ProjectQuerySet.for_user, ProjectQuerySet.distinct.
  destruct (has_perm u _); apply NoDup_remove_dups.
Qed.

(** C1 (as amended): a project is listed for a user exactly when it is a
    stored project whose organization is one of the user's and, moreover, the
    user holds the global permission or one of the project's teams is one of
    the user's. The organization filter applies to holders of the permission
    too. *)
Theorem for_user_visible d u p :
  p ∈ ProjectQuerySet.for_user d u ↔
  p ∈ projects d ∧
  ProjectQuerySet.organization_in (organizations u) p ∧
  (has_perm u ProjectQuerySet.can_manage_all = true ∨
   ∃ m, m ∈ memberships d ∧ project m = project_id p ∧ team m ∈ teams u).
Proof.
  unfold ProjectQuerySet.for_user, ProjectQuerySet.distinct.
  destruct (has_perm u ProjectQuerySet.can_manage_all) eqn:Hperm;
    rewrite elem_of_remove_dups.
  - rewrite list_elem_of_filter. naive_solver.
  - rewrite elem_of_filter_teams_in, list_elem_of_filter. naive_solver.
Qed.

(** C1 (as stated) fails: [manager] holds the global permission, yet [beta],
    a project of an organization that is not theirs, is not listed. *)
Lemma for_user_permission_counterexample :
  ¬ (∀ d u p, p ∈ projects d →
       (p ∈ ProjectQuerySet.for_user d u ↔ visible_as_specified d u p)).
Proof.
  intros H. specialize (H sample_db manager beta).
  assert (Hin : beta ∈ projects sample_db) by (cbn; set_solver).
  apply H in Hin. destruct Hin as [_ Hback].
  assert (Hlisted : ProjectQuerySet.for_user sample_db manager = [alpha])
    by (vm_compute; reflexivity).
  rewrite Hlisted in Hback.
  assert (Hv : visible_as_specified sample_db manager beta) by (left; reflexivity).
  apply Hback, list_elem_of_singleton in Hv. discriminate Hv.
Qed.

End Visibility.

(** ** The public endpoint *)

Section PublicEndpoint.

Implicit Types (d : Database) (u : User) (p : Project).

(** The owner queryset lists the stored projects whose organization has a
    membership record for the user, each once. *)
Lemma elem_of_for_user_is_owner_of_organization d u p :
  p ∈ ProjectQuerySet.for_user_is_owner_of_organization d u ↔
  p ∈ projects d ∧
  ∃ om, om ∈ organization_memberships d ∧
        organization p = Some (om_organization om) ∧ om_user om = user_id u.
Proof.
  unfold ProjectQuerySet.for_user_is_owner_of_organization, ProjectQuerySet.distinct.
  rewrite elem_of_remove_dups, list_elem_of_bind. split.
  - intros (q & Hin & Hq). apply list_elem_of_bind in Hin as (om & Hp & Hom).
    apply list_elem_of_singleton in Hp as ->.
    apply list_elem_of_filter in Hom as [[Horg Husr] Hom]. eauto 6.
  - intros (Hp & om & Hom & Horg & Husr). exists p. split; [|done].
    apply list_elem_of_bind. exists om. split; [by apply list_elem_of_singleton|].
    apply list_elem_of_filter. by repeat split.
Qed.

(** C10: for an admin the public endpoint works on all stored projects,
    whatever the organization memberships are; for any other user it works on
    exactly the owner queryset, that is on the stored projects whose
    organization has a membership record for the user. *)
Theorem get_queryset_admin_override d u :
  ProjectViewSet.get_queryset d u =
    (if is_admin u then projects d
     else ProjectQuerySet.for_user_is_owner_of_organization d u) ∧
  ∀ p, p ∈ ProjectViewSet.get_queryset d u ↔
       p ∈ projects d ∧
       (is_admin u = true ∨
        ∃ om, om ∈ organization_memberships d ∧
              organization p = Some (om_organization om) ∧ om_user om = user_id u).
Proof.
  split; [reflexivity|]. intros p. unfold ProjectViewSet.get_queryset.
  destruct (is_admin u).
  - split; [intros Hp; split; [done | by left] | by intros [Hp _]].
  - rewrite elem_of_for_user_is_owner_of_organization. split.
    + intros [Hp Hom]. split; [done | by right].
    + intros [Hp [Hadm | Hom]]; [discriminate Hadm | done].
Qed.

End PublicEndpoint.

(** ** Usage summary *)

Section UsageSummary.

Implicit Types (raw : UsageList) (mapped : list (option UsageItem)).

(** [map] keeps one entry per raw item, active or not. *)
Lemma list_map_length {A B} (f : A -> result B) (l : list A) (l' : list B) :
  list_map f l = Ok l' → length l' = length l.
Proof.
  revert l'. induction l as [|x l IH]; intros l' Hmap; cbn in Hmap.
  - by inversion Hmap.
  - destruct (f x); [|discriminate]. destruct (list_map f l); [|discriminate].
    inversion Hmap; subst. cbn. f_equal. by apply IH.
Qed.

(** The sums skip the entries of the stopped servers: they are the sums over
    the active items. *)
Lemma sum_field_active key raw mapped acc :
  list_map filter_active raw = Ok mapped →
  sum_field key mapped acc = sum_field key (Some <$> active_items raw) acc.
Proof.
  revert mapped acc. induction raw as [|item raw IH]; intros mapped acc Hmap; cbn in Hmap.
  - by inversion Hmap.
  - unfold filter_active at 1 in Hmap. unfold getitem in Hmap. unfold active_items.
    destruct (item !! "state") as [v|] eqn:Hstate; [|discriminate].
    destruct (list_map filter_active raw) as [rest|] eqn:Hrest;
      [|destruct (decide (v = PStr "active")); discriminate].
    destruct (decide (v = PStr "active")) as [->|Hne]; inversion Hmap; subst.
    + rewrite filter_cons_True by done. cbn.
      destruct (getitem item key); [|done]. destruct (py_add acc a); [|done].
      by apply IH.
    + rewrite filter_cons_False by congruence. cbn. by apply IH.
Qed.

(** What [summarize] answers on a non-empty raw list, when it answers:
    always a summary, whose total is the length of the raw list and whose
    sums run over the active items. *)
Lemma summarize_nonempty raw r :
  raw ≠ [] → summarize (Some raw) = Ok r →
  ∃ s, r = Some s ∧
       total s = Z.of_nat (length raw) ∧
       sum_field "memory_mb" (Some <$> active_items raw) 0 = Ok (ram s) ∧
       sum_field "vcpus" (Some <$> active_items raw) 0 = Ok (vcpus s).
Proof.
  intros Hne Hsum. unfold summarize in Hsum.
  destruct raw as [|item raw]; [done|].
  destruct (list_map filter_active (item :: raw)) as [mapped|] eqn:Hmap; [|discriminate].
  pose proof (list_map_length _ _ _ Hmap) as Hlen.
  destruct mapped as [|m mapped]; [discriminate Hlen|].
  rewrite !(sum_field_active _ _ _ _ Hmap) in Hsum.
  destruct (sum_field "memory_mb" _ 0) as [rv|]; [|discriminate].
  destruct (sum_field "vcpus" _ 0) as [vv|]; [|discriminate].
  inversion Hsum; subst. eexists; split; [reflexivity|]. cbn [total ram vcpus].
  by rewrite <- Hlen.
Qed.

(** C2 (the code departs from it): the usage source reports one stopped
    server and nothing else. No item is active, yet [usage_summary] answers a
    summary, with total 1, instead of [None]. *)
Theorem usage_summary_stopped_only :
  fst (get_compute_usage (openstack_answering stopped_usage) 300 alpha None None sample_world)
    = Ok (Some stopped_usage) ∧
  active_items stopped_usage = [] ∧
  fst (usage_summary (openstack_answering stopped_usage) 300 alpha None None sample_world)
    = Ok (Some {| total := 1; ram := 0; vcpus := 0 |}).
Proof. repeat split; vm_compute; reflexivity. Qed.

(** C3 (the code departs from it): on one active server (512 MB, 2 vCPUs)
    and one stopped server (1024 MB, 4 vCPUs), [ram] and [vcpus] are those of
    the active server, but [total] is 2, the number of all reported servers. *)
Theorem usage_summary_mixed :
  fst (usage_summary (openstack_answering mixed_usage) 300 alpha None None sample_world)
    = Ok (Some {| total := 2; ram := 512; vcpus := 2 |}) ∧
  length (active_items mixed_usage) = 1%nat.
Proof. split; vm_compute; reflexivity. Qed.

End UsageSummary.

(** ** Provisioning and usage lookups *)

Section Provisioning.

Variable os : Openstack.
Variable REPORTING_CACHE_TIMEOUT : Z.

Implicit Types (self : Project) (w : World).

(** C7: on a project that already has a tenant identifier,
    [create_openstack_project] returns [None] without error and leaves the
    project object as it was; the tables and the cache are untouched, the
    only record left is the warning, and the tenant collaborator is not
    called. *)
Theorem create_openstack_project_already_provisioned self w :
  openstack_id self ≠ "" →
  fst (create_openstack_project os self w) = Ok (self, None) ∧
  db (snd (create_openstack_project os self w)) = db w ∧
  cache_store (snd (create_openstack_project os self w)) = cache_store w ∧
  trace (snd (create_openstack_project os self w))
    = (trace w ++ [LogWarning (already_provisioned_message self)])%list ∧
  filter (fun e => is_openstack_call e = true) (trace (snd (create_openstack_project os self w)))
    = filter (fun e => is_openstack_call e = true) (trace w).
Proof.
  intros Hid. unfold create_openstack_project.
  destruct (decide (openstack_id self ≠ "")) as [_|Hno]; [|done].
  py_unfold. cbn. repeat split. rewrite filter_app. apply app_nil_r.
Qed.


(** C8: [enabled_on_openstack] answers the tenant's [enabled] flag when the
    collaborator answers, and [False] when the collaborator raises an
    exception (an instance of [Exception], the class the handler names). *)
Theorem enabled_on_openstack_degrades self w :
  fst (enabled_on_openstack os self w) =
    match os_get_project os (openstack_id self) with
    | Ok t => Ok (tenant_enabled t)
    | Raise (PyException _) => Ok false
    | Raise (PyBaseException c) => Raise (PyBaseException c)
    end.
Proof.
  unfold enabled_on_openstack, try_except_Exception, Openstack_get_project.
  py_unfold. cbn. destruct (os_get_project os (openstack_id self)) as [t|[c|c]]; reflexivity.
Qed.

(** The cache key looks at the dates only: two windows on the same days share
    their key. *)
Lemma compute_usage_cache_key_day_granularity tenant s s' e e' :
  (year s, month s, day s) = (year s', month s', day s') →
  (year e, month e, day e) = (year e', month e', day e') →
  compute_usage_cache_key tenant s e = compute_usage_cache_key tenant s' e'.
Proof.
  intros Hs He. inversion Hs. inversion He.
  unfold compute_usage_cache_key, strftime_Y_b_d. congruence.
Qed.


(** The default window keeps the sub-second part of the clock: it starts at
    midnight exactly when the clock was read on a whole second. *)
Lemma default_start_midnight_iff n :
  default_start n = midnight (year n) (month n) 1 ↔ microsecond n = 0.
Proof.
  unfold default_start, replace_day_hour_minute_second, midnight. split.
  - intros H. by inversion H.
  - intros ->. reflexivity.
Qed.

Lemma default_end_midnight_iff n :
  default_end n = midnight (year n) (month n) (day n) ↔ microsecond n = 0.
Proof.
  unfold default_end, replace_hour_minute_second, midnight. split.
  - intros H. by inversion H.
  - intros ->. reflexivity.
Qed.

End Provisioning.

(** [create_openstack_project_already_provisioned] at [alpha], whose tenant is ["tenant-1"]. *)
Lemma create_openstack_project_already_provisioned_witness :
  openstack_id alpha ≠ "" ∧
  fst (create_openstack_project (openstack_answering []) alpha sample_world)
    = Ok (alpha, None) ∧
  db (snd (create_openstack_project (openstack_answering []) alpha sample_world))
    = db sample_world ∧
  cache_store (snd (create_openstack_project (openstack_answering []) alpha sample_world))
    = cache_store sample_world ∧
  trace (snd (create_openstack_project (openstack_answering []) alpha sample_world))
    = (trace sample_world ++ [LogWarning (already_provisioned_message alpha)])%list ∧
  filter (fun e => is_openstack_call e = true)
      (trace (snd (create_openstack_project (openstack_answering []) alpha sample_world)))
    = filter (fun e => is_openstack_call e = true) (trace sample_world).
Proof.
  split; [discriminate|].
  apply (create_openstack_project_already_provisioned (openstack_answering []) alpha sample_world).
  discriminate.
Defined.

(** An unreachable OpenStack: the property is [False], and the attempt is
    on record. *)
Example enabled_on_openstack_unreachable :
  enabled_on_openstack openstack_unreachable alpha sample_world
    = (Ok false, set_trace [OpenstackGetProject "tenant-1"] sample_world).
Proof. reflexivity. Qed.


(** C9 (the code departs from it): the clock reads 4 November 2026,
    07:31:12.345678 and no window is passed. The usage source is asked for
    the window from 1 November 00:00:00.345678 to 4 November 00:00:00.345678:
    hour, minute and second are reset, the microseconds of the clock stay, so
    neither end of the window is midnight. *)
Theorem get_compute_usage_default_window :
  trace (snd (get_compute_usage (openstack_answering []) 300 alpha None None sample_world))
    = [OpenstackComputeUsage "tenant-1"
         {| year := 2026; month := 11; day := 1;
            hour := 0; minute := 0; second := 0; microsecond := 345678 |}
         {| year := 2026; month := 11; day := 4;
            hour := 0; minute := 0; second := 0; microsecond := 345678 |}] ∧
  default_start sample_now ≠ midnight 2026 11 1 ∧
  default_end sample_now ≠ midnight 2026 11 4.
Proof.
  split; [vm_compute; reflexivity|].
  split; intros H; apply (f_equal microsecond) in H; vm_compute in H; discriminate H.
Qed.

(** ** Membership writes and the provisioning service *)

(** C5 (the code departs from it on deletion): saving a membership sends one
    [save_project] for its project to the provisioning service; deleting a
    membership sends one [delete_project] for its project, and no
    [save_project]. *)
Theorem membership_write_provisioning_calls (m : ProjectMembership) (w : World) :
  trace (snd (ProjectMembership_save m w))
    = (trace w ++ [GardenerSaveProject (project m)])%list ∧
  trace (snd (ProjectMembership_delete m w))
    = (trace w ++ [GardenerDeleteProject (project m)])%list.
Proof.
  split.
  - unfold ProjectMembership_save, save_membership_row. py_unfold. cbn.
    destruct (membership_id m) as [pk|]; [|reflexivity].
    destruct (decide (Exists _ _)); reflexivity.
  - unfold ProjectMembership_delete, delete_project_membership. py_unfold. reflexivity.
Qed.

(** ** The admin serializer *)

Section SerializerUpdate.

Implicit Types (w : World) (m : ProjectMembership).

(** A property of the world that every step keeps is kept by a sequence,
    whether it ends normally or by an exception. *)
Lemma bind_keeps {A B} (P : World → Prop) (c : M A) (k : A → M B) w :
  P (snd (c w)) → (∀ a w', P w' → P (snd (k a w'))) → P (snd (bind c k w)).
Proof.
  intros Hc Hk. unfold bind. destruct (c w) as [[a|e] w']; cbn in *; auto.
Qed.

Lemma for_each_keeps {A} (P : World → Prop) (l : list A) (body : A → M unit) w :
  (∀ x w', P w' → P (snd (body x w'))) → P w → P (snd (for_each l body w)).
Proof.
  intros Hbody. revert w. induction l as [|x l IH]; intros w Hw; cbn; [done|].
  apply bind_keeps; auto.
Qed.

(** C4 (the code departs from it): [alpha] is held by team 10 and [beta] by
    team 30; the teams of [alpha] are replaced by team 20, read-only. The
    membership of team 10 goes and the one of team 20 is created, as
    specified, but the membership of [beta] is deleted too: the table is
    left with the single new row, and the provisioning service is told to
    delete [beta] (the newer row first) as well as [alpha]. *)
Theorem ProjectSerializer_update_deletes_other_projects :
  fst (ProjectSerializer_update alpha teams_become_20_read two_project_world) = Ok alpha ∧
  memberships (db (snd (ProjectSerializer_update alpha teams_become_20_read two_project_world)))
    = [ {| membership_id := Some 3; project := 1; team := 20; role := READ |} ] ∧
  trace (snd (ProjectSerializer_update alpha teams_become_20_read two_project_world))
    = [ GardenerSaveProject 1; GardenerDeleteProject 2; GardenerDeleteProject 1;
        GardenerSaveProject 1 ].
Proof. repeat split; vm_compute; reflexivity. Qed.

End SerializerUpdate.

(** * Further properties *)

Local Open Scope list_scope.

(** ** Usage lookups and the cache *)

Section UsageLookups.

Variable os : Openstack.
Variable REPORTING_CACHE_TIMEOUT : Z.

Implicit Types (self : Project) (w : World).

(** The three ways through [get_compute_usage]. *)
Lemma get_compute_usage_no_tenant self (start end_ : option datetime) w :
  openstack_id self = "" →
  get_compute_usage os REPORTING_CACHE_TIMEOUT self start end_ w = (Ok None, w).
Proof.
  intros Hid. unfold get_compute_usage. destruct start, end_; py_unfold; cbn;
    by rewrite decide_True by done.
Qed.

Lemma get_compute_usage_live self (start end_ : option datetime) w v expires :
  openstack_id self ≠ "" →
  cache_store w
    !! compute_usage_cache_key (openstack_id self) (window_start start w) (window_end end_ w)
    = Some (v, expires) →
  time w < expires →
  get_compute_usage os REPORTING_CACHE_TIMEOUT self start end_ w = (Ok (Some v), w).
Proof.
  intros Hid Hentry Hlive. unfold get_compute_usage, window_start, window_end in *.
  destruct start, end_; py_unfold; cbn in *;
    rewrite decide_False by done; rewrite Hentry; by rewrite decide_True by done.
Qed.

Lemma get_compute_usage_fetch self (start end_ : option datetime) w :
  openstack_id self ≠ "" →
  fst (cache_get
         (compute_usage_cache_key (openstack_id self)
            (window_start start w) (window_end end_ w)) w) = Ok None →
  get_compute_usage os REPORTING_CACHE_TIMEOUT self start end_ w =
    let s := window_start start w in
    let e := window_end end_ w in
    let w' := set_trace (trace w ++ [OpenstackComputeUsage (openstack_id self) s e])%list w in
    match os_get_compute_usage_for_project os (openstack_id self) s e (time w) with
    | Ok r =>
        (Ok (Some r),
         set_cache_store
           (<[compute_usage_cache_key (openstack_id self) s e
              := (r, time w + REPORTING_CACHE_TIMEOUT)]> (cache_store w)) w')
    | Raise err => (Raise err, w')
    end.
Proof.
  intros Hid Hmiss.
  unfold get_compute_usage, Openstack_get_compute_usage_for_project,
    window_start, window_end in *.
  destruct start, end_; py_unfold; cbn in *; rewrite decide_False by done;
    (destruct (cache_store w !! _) as [[v expires]|];
       [destruct (decide (time w < expires)); [discriminate Hmiss|] |]);
    cbn; by destruct (os_get_compute_usage_for_project os _ _ _ _).
Qed.

(** X1: a project without tenant identifier has no usage: whatever the
    window, [get_compute_usage] and [usage_summary] answer [None] and leave
    the world as it was (the usage source is not asked, the cache is neither
    read into the answer nor written). *)
Theorem unprovisioned_project_has_no_usage self (start end_ : option datetime) w :
  openstack_id self = "" →
  get_compute_usage os REPORTING_CACHE_TIMEOUT self start end_ w = (Ok None, w) ∧
  usage_summary os REPORTING_CACHE_TIMEOUT self start end_ w = (Ok None, w).
Proof.
  intros Hid. split; [by apply get_compute_usage_no_tenant|].
  unfold usage_summary, bind. by rewrite get_compute_usage_no_tenant.
Qed.

(** X2: while an entry for the window is live, [get_compute_usage] answers
    it and leaves the world as it was: the usage source is not asked, whatever
    it would answer now. *)
Theorem get_compute_usage_answers_from_cache
    self (start end_ : option datetime) w v expires :
  openstack_id self ≠ "" →
  cache_store w
    !! compute_usage_cache_key (openstack_id self) (window_start start w) (window_end end_ w)
    = Some (v, expires) →
  time w < expires →
  get_compute_usage os REPORTING_CACHE_TIMEOUT self start end_ w = (Ok (Some v), w) ∧
  usage_summary os REPORTING_CACHE_TIMEOUT self start end_ w = (summarize (Some v), w).
Proof.
  intros Hid Hentry Hlive. split; [by eapply get_compute_usage_live|].
  unfold usage_summary, bind. by erewrite get_compute_usage_live.
Qed.

(** X3: when the cache has nothing for the window and the usage source
    raises, the exception leaves [get_compute_usage] and [usage_summary]
    as it is, and the cache is as before: the failure is not remembered. *)
Theorem usage_source_failure_propagates self (start end_ : option datetime) w err :
  openstack_id self ≠ "" →
  fst (cache_get
         (compute_usage_cache_key (openstack_id self)
            (window_start start w) (window_end end_ w)) w) = Ok None →
  os_get_compute_usage_for_project os (openstack_id self)
    (window_start start w) (window_end end_ w) (time w) = Raise err →
  fst (get_compute_usage os REPORTING_CACHE_TIMEOUT self start end_ w) = Raise err ∧
  fst (usage_summary os REPORTING_CACHE_TIMEOUT self start end_ w) = Raise err ∧
  cache_store (snd (usage_summary os REPORTING_CACHE_TIMEOUT self start end_ w))
    = cache_store w ∧
  db (snd (usage_summary os REPORTING_CACHE_TIMEOUT self start end_ w)) = db w.
Proof.
  intros Hid Hmiss Herr. unfold usage_summary, bind.
  rewrite get_compute_usage_fetch by done. cbn zeta. rewrite Herr. by cbn.
Qed.

(** X4: the cache does not tell two windows on the same days apart. After a
    call that fetched [r] for one window, a call for any window with the same
    start day and the same end day, made before the entry expires, answers
    [r] without asking the usage source. *)
Theorem get_compute_usage_same_days_share_entry
    self (start end_ start' end_' : option datetime) w t2 n2 r :
  openstack_id self ≠ "" →
  fst (cache_get
         (compute_usage_cache_key (openstack_id self)
            (window_start start w) (window_end end_ w)) w) = Ok None →
  os_get_compute_usage_for_project os (openstack_id self)
    (window_start start w) (window_end end_ w) (time w) = Ok r →
  t2 < time w + REPORTING_CACHE_TIMEOUT →
  let w1 := snd (get_compute_usage os REPORTING_CACHE_TIMEOUT self start end_ w) in
  let w2 := set_clock t2 n2 w1 in
  (year (window_start start' w2), month (window_start start' w2), day (window_start start' w2))
    = (year (window_start start w), month (window_start start w), day (window_start start w)) →
  (year (window_end end_' w2), month (window_end end_' w2), day (window_end end_' w2))
    = (year (window_end end_ w), month (window_end end_ w), day (window_end end_ w)) →
  get_compute_usage os REPORTING_CACHE_TIMEOUT self start' end_' w2 = (Ok (Some r), w2).
Proof.
  intros Hid Hmiss Hfetch Hlive w1 w2 Hs He.
  assert (Hw1 : w1 =
    set_cache_store
      (<[compute_usage_cache_key (openstack_id self)
           (window_start start w) (window_end end_ w)
         := (r, time w + REPORTING_CACHE_TIMEOUT)]> (cache_store w))
      (set_trace (trace w ++ [OpenstackComputeUsage (openstack_id self)
                                (window_start start w) (window_end end_ w)])%list w)).
  { subst w1. rewrite get_compute_usage_fetch by done. cbn zeta. by rewrite Hfetch. }
  apply get_compute_usage_live with (expires := time w + REPORTING_CACHE_TIMEOUT);
    [done | | subst w2; by cbn].
  rewrite (compute_usage_cache_key_day_granularity _ _ (window_start start w)
             _ (window_end end_ w) Hs He).
  subst w2. rewrite Hw1. cbn. apply lookup_insert_eq.
Qed.

End UsageLookups.

(** [unprovisioned_project_has_no_usage] at [beta], which has no tenant. *)
Lemma unprovisioned_project_has_no_usage_witness :
  get_compute_usage (openstack_answering mixed_usage) 300 beta None None sample_world
    = (Ok None, sample_world) ∧
  usage_summary (openstack_answering mixed_usage) 300 beta None None sample_world
    = (Ok None, sample_world).
Proof.
  apply (unprovisioned_project_has_no_usage (openstack_answering mixed_usage) 300
           beta None None sample_world).
  reflexivity.
Defined.

(** [get_compute_usage_answers_from_cache] with an entry for the default
    window of [sample_world] that lives until instant 2000, and a usage source
    that would now answer something else. *)
Lemma get_compute_usage_answers_from_cache_witness :
  let w := set_cache_store
             {[ "compute_usage.tenant-1.2026-Nov-01-2026-Nov-04" := (mixed_usage, 2000) ]}
             sample_world in
  get_compute_usage (openstack_answering stopped_usage) 300 alpha None None w
    = (Ok (Some mixed_usage), w) ∧
  usage_summary (openstack_answering stopped_usage) 300 alpha None None w
    = (summarize (Some mixed_usage), w).
Proof.
  apply (get_compute_usage_answers_from_cache (openstack_answering stopped_usage) 300
           alpha None None _ mixed_usage 2000);
    [discriminate | vm_compute; reflexivity | reflexivity].
Defined.

(** [usage_source_failure_propagates] with an OpenStack that cannot be
    reached. *)
Lemma usage_source_failure_propagates_witness :
  fst (get_compute_usage openstack_unreachable 300 alpha None None sample_world)
    = Raise (PyException "ConnectionError") ∧
  fst (usage_summary openstack_unreachable 300 alpha None None sample_world)
    = Raise (PyException "ConnectionError") ∧
  cache_store (snd (usage_summary openstack_unreachable 300 alpha None None sample_world))
    = cache_store sample_world ∧
  db (snd (usage_summary openstack_unreachable 300 alpha None None sample_world))
    = db sample_world.
Proof.
  apply (usage_source_failure_propagates openstack_unreachable 300
           alpha None None sample_world (PyException "ConnectionError"));
    [discriminate | reflexivity | reflexivity].
Defined.

(** [get_compute_usage_same_days_share_entry]: usage is fetched for 1 to 4
    November from midnight to midnight; 200 seconds later it is asked from
    1 November 09:30 to the default end, and the first answer comes back. *)
Lemma get_compute_usage_same_days_share_entry_witness :
  let w2 :=
    set_clock 1200 sample_now
      (snd (get_compute_usage (openstack_answering mixed_usage) 300 alpha
              (Some (midnight 2026 11 1)) (Some (midnight 2026 11 4)) sample_world)) in
  get_compute_usage (openstack_answering mixed_usage) 300 alpha
    (Some {| year := 2026; month := 11; day := 1;
             hour := 9; minute := 30; second := 0; microsecond := 0 |})
    None w2
    = (Ok (Some mixed_usage), w2).
Proof.
  apply (get_compute_usage_same_days_share_entry (openstack_answering mixed_usage) 300
           alpha (Some (midnight 2026 11 1)) (Some (midnight 2026 11 4))
           (Some {| year := 2026; month := 11; day := 1;
                    hour := 9; minute := 30; second := 0; microsecond := 0 |})
           None sample_world 1200 sample_now mixed_usage);
    [discriminate | reflexivity | reflexivity | reflexivity | reflexivity | reflexivity].
Defined.

(** ** What the summary reads *)

Section SummaryFields.

Implicit Types (raw : UsageList) (item : UsageItem) (key : string).

Lemma list_map_filter_active_cons item raw :
  list_map filter_active (item :: raw) =
    match item !! "state" with
    | None => Raise KeyError
    | Some v =>
        match list_map filter_active raw with
        | Raise e => Raise e
        | Ok rest => Ok ((if decide (v = PStr "active") then Some item else None) :: rest)
        end
    end.
Proof.
  cbn. unfold filter_active, getitem. destruct (item !! "state") as [v|]; [|done].
  destruct (decide (v = PStr "active")); reflexivity.
Qed.

(** [map] can only fail on a record without state, with [KeyError]. *)
Lemma list_map_filter_active_raise raw e :
  list_map filter_active raw = Raise e →
  e = KeyError ∧ ∃ item, item ∈ raw ∧ item !! "state" = None.
Proof.
  induction raw as [|item raw IH]; [discriminate|].
  rewrite list_map_filter_active_cons.
  destruct (item !! "state") as [v|] eqn:Hstate.
  - destruct (list_map filter_active raw) as [rest|e']; [discriminate|].
    intros [= ->]. destruct IH as (-> & it & Hin & Hit); [done|].
    split; [done|]. exists it. split; [by right | done].
  - intros [= <-]. split; [done|]. exists item. split; [by left | done].
Qed.

Lemma list_map_filter_active_missing_state raw item :
  item ∈ raw → item !! "state" = None → list_map filter_active raw = Raise KeyError.
Proof.
  intros Hin Hnone. induction raw as [|it raw IH]; [by apply elem_of_nil in Hin|].
  rewrite list_map_filter_active_cons. apply elem_of_cons in Hin as [<-|Hin].
  - by rewrite Hnone.
  - destruct (it !! "state"); [|done]. by rewrite IH.
Qed.

(** Over records that all hold an integer under [key], [sum] adds them up. *)
Lemma sum_field_total key (items : UsageList) acc :
  (∀ item, item ∈ items → ∃ z, item !! key = Some (PInt z)) →
  sum_field key (Some <$> items) acc = Ok (acc + field_total key items).
Proof.
  revert acc. induction items as [|item items IH]; intros acc Hint;
    cbn [fmap list_fmap sum_field].
  - cbn. f_equal. lia.
  - destruct (Hint item) as [z Hz]; [by left|].
    unfold getitem. rewrite Hz. cbn [py_add].
    rewrite IH by (intros it Hit; apply Hint; by right). f_equal.
    change (field_total key (item :: items))
      with (int_field key item + field_total key items).
    unfold int_field. rewrite Hz. lia.
Qed.

(** A record that has nothing under [key], or a string, makes [sum] raise. *)
Lemma sum_field_raises key (items : UsageList) item acc :
  item ∈ items → (∀ v, item !! key = Some v → ∃ s, v = PStr s) →
  ∃ err, sum_field key (Some <$> items) acc = Raise err.
Proof.
  intros Hin Hbad. revert acc. induction items as [|it items IH]; intros acc;
    [by apply elem_of_nil in Hin|].
  cbn. unfold getitem. apply elem_of_cons in Hin as [<-|Hin].
  - destruct (item !! key) as [[z|s]|] eqn:Hkey; cbn; eauto.
    by destruct (Hbad (PInt z) eq_refl).
  - destruct (it !! key) as [[z|s]|]; cbn; eauto.
Qed.

(** [summarize] in terms of the mapped list and the active items. *)
Lemma summarize_cons item raw :
  summarize (Some (item :: raw)) =
    match list_map filter_active (item :: raw) with
    | Raise e => Raise e
    | Ok _ =>
        match sum_field "memory_mb" (Some <$> active_items (item :: raw)) 0 with
        | Raise e => Raise e
        | Ok r =>
            match sum_field "vcpus" (Some <$> active_items (item :: raw)) 0 with
            | Raise e => Raise e
            | Ok v => Ok (Some {| total := Z.of_nat (length (item :: raw));
                                  ram := r; vcpus := v |})
            end
        end
    end.
Proof.
  unfold summarize.
  destruct (list_map filter_active (item :: raw)) as [mapped|e] eqn:Hmap; [|done].
  pose proof (list_map_length _ _ _ Hmap) as Hlen.
  rewrite <- !(sum_field_active _ _ _ _ Hmap), <- Hlen.
  destruct mapped; [discriminate Hlen | reflexivity].
Qed.

(** X6: on a non-empty, well-formed usage list the summary is: as total the
    number of all records, as [ram] and [vcpus] the sums of [memory_mb] and
    [vcpus] over the active records. *)
Theorem summarize_well_formed raw :
  raw ≠ [] → well_formed_usage raw →
  summarize (Some raw) =
    Ok (Some {| total := Z.of_nat (length raw);
                ram := field_total "memory_mb" (active_items raw);
                vcpus := field_total "vcpus" (active_items raw) |}).
Proof.
  intros Hne Hwf. destruct raw as [|item raw]; [done|]. rewrite summarize_cons.
  destruct (list_map filter_active (item :: raw)) as [mapped|e] eqn:Hmap.
  - rewrite !sum_field_total; [done | |];
      intros it [Hact Hit]%list_elem_of_filter; by apply (Hwf it Hit).
  - apply list_map_filter_active_raise in Hmap as (_ & it & Hit & Hnone).
    destruct (Hwf it Hit) as [[v Hv] _]. congruence.
Qed.

(** X7: a single record without ["state"], anywhere in the list and whatever
    else it holds, makes the summary raise [KeyError]. *)
Theorem summarize_missing_state raw item :
  item ∈ raw → item !! "state" = None → summarize (Some raw) = Raise KeyError.
Proof.
  intros Hin Hnone. destruct raw as [|it raw]; [by apply elem_of_nil in Hin|].
  rewrite summarize_cons. by rewrite (list_map_filter_active_missing_state _ item).
Qed.

(** X8: what a summary that completes tells about its input: when the body
    of [usage_summary] ends without exception on a non-empty usage list,
    every record has a state and every active record holds a value that is
    not a string under [memory_mb] and under [vcpus]. *)
Theorem summarize_completes_only_with_fields raw :
  raw ≠ [] → (∃ s, summarize (Some raw) = Ok s) → has_required_fields raw.
Proof.
  intros Hne [s Hs] item Hin. destruct raw as [|it raw]; [done|].
  rewrite summarize_cons in Hs. split.
  - destruct (item !! "state") eqn:Hstate; [by eexists|].
    by rewrite (list_map_filter_active_missing_state _ item) in Hs.
  - intros Hact.
    assert (Hin' : item ∈ active_items (it :: raw))
      by (apply list_elem_of_filter; done).
    destruct (list_map filter_active (it :: raw)); [|discriminate].
    destruct (sum_field "memory_mb" _ 0) as [r|] eqn:Hram; [|discriminate].
    destruct (sum_field "vcpus" _ 0) as [v|] eqn:Hvcpus; [|discriminate].
    split.
    + destruct (item !! "memory_mb") as [[z|x]|] eqn:Hkey;
        [eexists; split; [reflexivity | discriminate] | |];
        (destruct (sum_field_raises "memory_mb" _ item 0 Hin') as [err Herr];
           [intros val Hval; rewrite Hkey in Hval; try discriminate Hval;
            injection Hval as <-; by eexists | congruence]).
    + destruct (item !! "vcpus") as [[z|x]|] eqn:Hkey;
        [eexists; split; [reflexivity | discriminate] | |];
        (destruct (sum_field_raises "vcpus" _ item 0 Hin') as [err Herr];
           [intros val Hval; rewrite Hkey in Hval; try discriminate Hval;
            injection Hval as <-; by eexists | congruence]).
Qed.

(** X9: the summary does not read what a record that is not active holds
    besides its state: exchanging such a record for another with the same
    state changes neither the answer nor the exception. *)
Theorem summarize_ignores_stopped_fields (l1 l2 : UsageList) item item' :
  item !! "state" = item' !! "state" →
  item !! "state" ≠ Some (PStr "active") →
  summarize (Some (l1 ++ item :: l2)) = summarize (Some (l1 ++ item' :: l2)).
Proof.
  intros Hsame Hstopped.
  assert (Hmap : list_map filter_active (l1 ++ item :: l2)
                 = list_map filter_active (l1 ++ item' :: l2)).
  { induction l1 as [|it l1 IH]; cbn [app]; rewrite !list_map_filter_active_cons.
    - rewrite <- Hsame. destruct (item !! "state") as [v|]; [|done].
      destruct (list_map filter_active l2); [|done].
      destruct (decide (v = PStr "active")); [congruence | done].
    - by rewrite IH. }
  assert (Hact : active_items (l1 ++ item :: l2) = active_items (l1 ++ item' :: l2)).
  { unfold active_items. rewrite !filter_app, !filter_cons_False; congruence. }
  assert (Hlen : length (l1 ++ item :: l2) = length (l1 ++ item' :: l2))
    by (rewrite !length_app; reflexivity).
  destruct l1 as [|it l1]; cbn [app] in *; rewrite !summarize_cons;
    by rewrite Hmap, Hact, Hlen.
Qed.

End SummaryFields.

(** [summarize_well_formed] on one active and one stopped server. *)
Lemma summarize_well_formed_witness :
  summarize (Some mixed_usage) = Ok (Some {| total := 2; ram := 512; vcpus := 2 |}).
Proof.
  apply (summarize_well_formed mixed_usage); [discriminate|].
  intros item Hin. unfold mixed_usage in Hin.
  apply elem_of_cons in Hin as [->|Hin];
    [|apply list_elem_of_singleton in Hin as ->];
    (split; [by eexists | intros _; split; by eexists]).
Defined.

(** [summarize_missing_state]: an active server followed by an empty
    record. *)
Lemma summarize_missing_state_witness :
  summarize (Some [usage_item "active" 512 2; ∅]) = Raise KeyError.
Proof.
  apply (summarize_missing_state [usage_item "active" 512 2; ∅] ∅);
    [apply elem_of_cons; right; by apply list_elem_of_singleton | reflexivity].
Defined.

(** [summarize_completes_only_with_fields] on one active and one stopped
    server. *)
Lemma summarize_completes_only_with_fields_witness :
  has_required_fields mixed_usage.
Proof.
  apply (summarize_completes_only_with_fields mixed_usage); [discriminate|].
  eexists. vm_compute. reflexivity.
Defined.

(** [summarize_ignores_stopped_fields]: the stopped server of [mixed_usage]
    against a record that holds nothing but the state. *)
Lemma summarize_ignores_stopped_fields_witness :
  summarize (Some ([usage_item "active" 512 2] ++ usage_item "shutoff" 1024 4 :: []))
  = summarize (Some ([usage_item "active" 512 2] ++ {[ "state" := PStr "shutoff" ]} :: [])).
Proof.
  apply (summarize_ignores_stopped_fields [usage_item "active" 512 2] []
           (usage_item "shutoff" 1024 4) {[ "state" := PStr "shutoff" ]});
    [reflexivity | discriminate].
Defined.

(** ** Saving projects and creating tenants *)

Section TenantCreation.

Variable os : Openstack.

Implicit Types (self p : Project) (w : World).


(** The write of [super().save], accepted or refused. *)
Lemma Model_save_project_accepted (force_insert : bool) self w :
  ¬ name_taken self (projects (db w)) →
  ¬ (force_insert = true ∧ key_stored self (projects (db w))) →
  Model_save_project force_insert self w =
    (Ok tt, set_db (set_projects (save_project_row self (projects (db w))) (db w)) w).
Proof.
  intros Hfree Hkey. unfold Model_save_project, bind, get_db. cbn beta iota.
  rewrite decide_False by done. by rewrite decide_False by done.
Qed.

Lemma Model_save_project_refused (force_insert : bool) self w :
  name_taken self (projects (db w)) →
  Model_save_project force_insert self w = (Raise IntegrityError, w).
Proof.
  intros Htaken. unfold Model_save_project, bind, get_db. cbn beta iota.
  by rewrite decide_True by done.
Qed.

(** A save that the database accepts. *)
Lemma Project_save_accepted self (save_to_gardener : bool) w :
  ¬ name_taken self (projects (db w)) →
  Project_save self save_to_gardener w =
    (Ok self,
     set_trace
       (trace w ++ (if save_to_gardener then [GardenerSaveProject (project_id self)] else []))
       (set_db (set_projects (save_project_row self (projects (db w))) (db w)) w)).
Proof.
  intros Hfree. unfold Project_save, Project_save_kwargs, bind.
  rewrite Model_save_project_accepted by (done || by intros []).
  destruct save_to_gardener; py_unfold; cbn; [done|].
  unfold set_trace. cbn. by rewrite app_nil_r.
Qed.

(** A save that the database refuses. *)
Lemma Project_save_refused self (save_to_gardener : bool) w :
  name_taken self (projects (db w)) →
  Project_save self save_to_gardener w = (Raise IntegrityError, w).
Proof.
  intros Htaken. unfold Project_save, Project_save_kwargs, bind.
  by rewrite Model_save_project_refused by done.
Qed.



(** X12: provisioning happens once. After a call that created a tenant with
    a non-empty identifier, calling [create_openstack_project] again on the
    project it returned creates nothing: the second call returns [None] and
    the two calls together have asked OpenStack for one tenant. *)
Theorem create_openstack_project_twice self w t :
  openstack_id self = "" →
  os_create_project os (name self) = Ok t →
  tenant_id t ≠ "" →
  let self' := set_openstack_id self (tenant_id t) in
  let w1 := snd (create_openstack_project os self w) in
  fst (create_openstack_project os self' w1) = Ok (self', None) ∧
  db (snd (create_openstack_project os self' w1)) = db w1 ∧
  filter (fun e => is_openstack_call e = true)
      (trace (snd (create_openstack_project os self' w1)))
    = filter (fun e => is_openstack_call e = true) (trace w)
      ++ [OpenstackCreateProject (name self)].
Proof.
  intros Hid Hos Htenant self' w1.
  assert (Hsecond : ∀ w', create_openstack_project os self' w' =
            (Ok (self', None),
             set_trace (trace w' ++ [LogWarning (already_provisioned_message self')]) w')).
  { intros w'. unfold create_openstack_project. by rewrite decide_True by done. }
  assert (Hfirst : filter (fun e => is_openstack_call e = true) (trace w1)
                   = filter (fun e => is_openstack_call e = true) (trace w)
                     ++ [OpenstackCreateProject (name self)]).
  { subst w1. unfold create_openstack_project, Openstack_create_project.
    rewrite decide_False by (by rewrite Hid; intros H).
    unfold bind at 1 2, emit, lift. cbn iota beta. rewrite Hos. cbn iota beta.
    unfold bind.
    destruct (decide (name_taken (set_openstack_id self (tenant_id t))
                        (projects (db (set_trace
                           (trace w ++ [OpenstackCreateProject (name self)]) w)))))
      as [Htaken|Hfree].
    - rewrite Project_save_refused by exact Htaken. cbn.
      by rewrite filter_app.
    - rewrite Project_save_accepted by exact Hfree. cbn.
      rewrite !filter_app. cbn. by rewrite app_nil_r. }
  rewrite Hsecond. cbn. split; [done|]. split; [done|].
  rewrite filter_app, Hfirst. cbn. by rewrite app_nil_r.
Qed.

(** X13: when OpenStack raises on the creation of the tenant, the exception
    leaves [create_openstack_project] as it is: nothing is stored, nothing is
    sent to the provisioning service, and the project stays without tenant
    identifier in the database. *)
Theorem create_openstack_project_failure self w err :
  openstack_id self = "" →
  os_create_project os (name self) = Raise err →
  fst (create_openstack_project os self w) = Raise err ∧
  db (snd (create_openstack_project os self w)) = db w ∧
  cache_store (snd (create_openstack_project os self w)) = cache_store w ∧
  trace (snd (create_openstack_project os self w))
    = trace w ++ [OpenstackCreateProject (name self)].
Proof.
  intros Hid Hos. unfold create_openstack_project, Openstack_create_project.
  rewrite decide_False by (by rewrite Hid; intros H). py_unfold. cbn. by rewrite Hos.
Qed.

End TenantCreation.



(** [create_openstack_project_twice] at [beta]. *)
Lemma create_openstack_project_twice_witness :
  let w1 := snd (create_openstack_project (openstack_answering []) beta sample_world) in
  fst (create_openstack_project (openstack_answering [])
         (set_openstack_id beta "tenant-new") w1)
    = Ok (set_openstack_id beta "tenant-new", None) ∧
  db (snd (create_openstack_project (openstack_answering [])
             (set_openstack_id beta "tenant-new") w1)) = db w1 ∧
  filter (fun e => is_openstack_call e = true)
      (trace (snd (create_openstack_project (openstack_answering [])
                     (set_openstack_id beta "tenant-new") w1)))
    = filter (fun e => is_openstack_call e = true) (trace sample_world)
      ++ [OpenstackCreateProject "beta"].
Proof.
  apply (create_openstack_project_twice (openstack_answering []) beta sample_world
           {| tenant_id := "tenant-new"; tenant_enabled := true |});
    [reflexivity | reflexivity | discriminate].
Defined.

(** [create_openstack_project_failure] at [beta], OpenStack out of reach. *)
Lemma create_openstack_project_failure_witness :
  fst (create_openstack_project openstack_unreachable beta sample_world)
    = Raise (PyException "ConnectionError") ∧
  db (snd (create_openstack_project openstack_unreachable beta sample_world))
    = db sample_world ∧
  cache_store (snd (create_openstack_project openstack_unreachable beta sample_world))
    = cache_store sample_world ∧
  trace (snd (create_openstack_project openstack_unreachable beta sample_world))
    = trace sample_world ++ [OpenstackCreateProject "beta"].
Proof.
  apply (create_openstack_project_failure openstack_unreachable beta sample_world
           (PyException "ConnectionError"));
    reflexivity.
Defined.

(** ** Plans, members and deletion *)

Section PlansAndMembers.

Implicit Types (d : Database) (u : User) (p self : Project) (w : World) (plan : Plan).

Lemma is_active_fold now_ (plans : list Plan) (acc : bool) :
  fold_left (is_active_step now_) plans acc = true ↔
  acc = true ∨
  ∃ plan, plan ∈ plans ∧
          match expiration_time plan with None => True | Some e => now_ < e end.
Proof.
  revert acc. induction plans as [|plan plans IH]; intros acc; cbn.
  - split; [by left|]. intros [H|(plan & Hin & _)]; [done | by apply elem_of_nil in Hin].
  - rewrite IH. unfold is_active_step. split.
    + intros [Hstep|(q & Hq & Hrun)].
      * destruct (expiration_time plan) as [e|] eqn:Hexp.
        -- destruct (decide (now_ < e)); [|by left].
           right. exists plan. split; [by left | by rewrite Hexp].
        -- right. exists plan. split; [by left | by rewrite Hexp].
      * right. exists q. split; [by right | done].
    + intros [->|(q & Hq & Hrun)].
      * left. destruct (expiration_time plan); [by destruct (decide _) | done].
      * apply elem_of_cons in Hq as [Heq|Hq]; [subst q; left | right; eauto].
        destruct (expiration_time plan); [by rewrite decide_True | done].
Qed.

(** X14: [is_active] holds exactly when some plan of the project is flagged
    active, valid from now or earlier, and without expiry or expiring
    strictly later than now. A plan that expires at this very instant does
    not count; a project without plans is not active. *)
Theorem is_active_iff (plans : list Plan) (now_ : Z) :
  is_active plans now_ = true ↔ ∃ plan, plan ∈ plans ∧ plan_running now_ plan.
Proof.
  unfold is_active, plan_running. rewrite is_active_fold. split.
  - intros [H|(plan & [[Hact Hfrom] Hin]%list_elem_of_filter & Hexp)]; [done|]. eauto 6.
  - intros (plan & Hin & Hact & Hfrom & Hexp). right. exists plan.
    split; [|done]. by apply list_elem_of_filter.
Qed.

(** X15: the members of a project are the users who are in at least one
    team that holds a membership of the project. *)
Theorem get_members_iff d (users : list User) self u :
  u ∈ get_members d users self ↔
  u ∈ users ∧ ∃ m, m ∈ memberships d ∧ project m = project_id self ∧ team m ∈ teams u.
Proof.
  unfold get_members. rewrite list_elem_of_bind. split.
  - intros (u' & Hin & Hu').
    apply list_elem_of_bind in Hin as (t & Hin & Ht).
    apply list_elem_of_bind in Hin as (m & Hin & Hm).
    apply list_elem_of_singleton in Hin as ->.
    apply list_elem_of_filter in Hm as [[Hteam Hproj] Hm]. subst t. eauto 6.
  - intros (Hu & m & Hm & Hproj & Hteam). exists u. split; [|done].
    apply list_elem_of_bind. exists (team m). split; [|done].
    apply list_elem_of_bind. exists m. split; [by apply list_elem_of_singleton|].
    by apply list_elem_of_filter.
Qed.

(** X16: for a user without the global permission, the projects listed by
    [for_user] are the stored projects of the user's organizations of which
    the user is a member in the sense of [get_members]. *)
Theorem for_user_lists_member_projects d u p :
  has_perm u ProjectQuerySet.can_manage_all = false →
  (p ∈ ProjectQuerySet.for_user d u ↔
   p ∈ projects d ∧ ProjectQuerySet.organization_in (organizations u) p ∧
   u ∈ get_members d [u] p).
Proof.
  intros Hperm. unfold ProjectQuerySet.for_user, ProjectQuerySet.distinct.
  rewrite Hperm, elem_of_remove_dups, elem_of_filter_teams_in, list_elem_of_filter.
  unfold get_members. rewrite list_elem_of_bind. split.
  - intros [[Horg Hp] (m & Hm & Hproj & Hteam)]. repeat split; [done..|].
    exists u. split; [|by apply list_elem_of_singleton].
    apply list_elem_of_bind. exists (team m). split; [|done].
    apply list_elem_of_bind. exists m. split; [by apply list_elem_of_singleton|].
    by apply list_elem_of_filter.
  - intros (Hp & Horg & u' & Hin & Hu'). apply list_elem_of_singleton in Hu' as ->.
    apply list_elem_of_bind in Hin as (t & Hin & Ht).
    apply list_elem_of_bind in Hin as (m & _ & Hm).
    apply list_elem_of_filter in Hm as [[Hteam Hproj] Hm]. subst t. eauto 7.
Qed.






End PlansAndMembers.

(** [for_user_lists_member_projects] for a member of team 10 in
    organization 7 who holds no permission, and project [alpha]. *)
Lemma for_user_lists_member_projects_witness :
  let u := {| user_id := 6; organizations := [7]; teams := [10];
              has_perm := fun _ => false; is_admin := false |} in
  alpha ∈ ProjectQuerySet.for_user sample_db u ↔
  alpha ∈ projects sample_db ∧ ProjectQuerySet.organization_in (organizations u) alpha ∧
  u ∈ get_members sample_db [u] alpha.
Proof.
  apply (for_user_lists_member_projects sample_db
           {| user_id := 6; organizations := [7]; teams := [10];
              has_perm := fun _ => false; is_admin := false |} alpha).
  reflexivity.
Defined.

(** ** More on the querysets *)

Section QuerysetEdges.

Implicit Types (d : Database) (u : User) (p : Project).

(** X18: a project without organization is listed by neither queryset, for
    no user, whatever their permissions and teams; on the public endpoint
    only an admin reaches it. *)
Theorem project_without_organization_is_hidden d u p :
  organization p = None →
  (p ∉ ProjectQuerySet.for_user d u) ∧
  (p ∉ ProjectQuerySet.for_user_is_owner_of_organization d u) ∧
  (p ∈ ProjectViewSet.get_queryset d u → is_admin u = true).
Proof.
  intros Hnull.
  assert (Hfor : p ∉ ProjectQuerySet.for_user d u).
  { unfold ProjectQuerySet.for_user, ProjectQuerySet.distinct.
    destruct (has_perm u _); rewrite elem_of_remove_dups;
      [|rewrite elem_of_filter_teams_in; intros [Hp _]; revert Hp];
      rewrite list_elem_of_filter; unfold ProjectQuerySet.organization_in;
      rewrite Hnull; tauto. }
  assert (Hown : p ∉ ProjectQuerySet.for_user_is_owner_of_organization d u).
  { rewrite elem_of_for_user_is_owner_of_organization.
    intros (_ & om & _ & Horg & _). congruence. }
  repeat split; [done..|].
  unfold ProjectViewSet.get_queryset. by destruct (is_admin u).
Qed.

(** X19: the querysets list no project twice, however many teams or
    organization memberships lead to it; the public endpoint lists no project
    twice as long as the project table has no duplicate row. *)
Theorem querysets_list_projects_once d u :
  NoDup (ProjectQuerySet.for_user d u) ∧
  NoDup (ProjectQuerySet.for_user_is_owner_of_organization d u) ∧
  (NoDup (projects d) → NoDup (ProjectViewSet.get_queryset d u)).
Proof.
  split; [apply for_user_NoDup|]. split.
  - apply NoDup_remove_dups.
  - intros Hnd. unfold ProjectViewSet.get_queryset.
    destruct (is_admin u); [done | apply NoDup_remove_dups].
Qed.

(** X20: the global permission only widens the list: a user who is given
    the permission, organizations and teams unchanged, still sees every
    project they saw before. *)
Theorem global_permission_only_widens d u u' p :
  organizations u' = organizations u →
  teams u' = teams u →
  has_perm u' ProjectQuerySet.can_manage_all = true →
  p ∈ ProjectQuerySet.for_user d u → p ∈ ProjectQuerySet.for_user d u'.
Proof.
  intros Horgs Hteams Hperm. unfold ProjectQuerySet.for_user, ProjectQuerySet.distinct.
  rewrite Hperm, Horgs. destruct (has_perm u _); rewrite !elem_of_remove_dups; [done|].
  rewrite elem_of_filter_teams_in. tauto.
Qed.

End QuerysetEdges.

(** [project_without_organization_is_hidden] at [orphan], a stored project
    without organization that has a membership of team 10, for a holder of
    the global permission who is in team 10. *)
Lemma project_without_organization_is_hidden_witness :
  orphan ∈ projects orphan_db ∧
  (orphan ∉ ProjectQuerySet.for_user orphan_db manager_in_team) ∧
  (orphan ∉ ProjectQuerySet.for_user_is_owner_of_organization orphan_db manager_in_team) ∧
  (orphan ∈ ProjectViewSet.get_queryset orphan_db manager_in_team →
   is_admin manager_in_team = true).
Proof.
  split; [cbn; right; by left|].
  apply (project_without_organization_is_hidden orphan_db manager_in_team orphan).
  reflexivity.
Defined.

(** [global_permission_only_widens]: a member of team 10 in organization 7,
    before and after being given the permission, and project [alpha]. *)
Lemma global_permission_only_widens_witness :
  alpha ∈ ProjectQuerySet.for_user sample_db
            {| user_id := 6; organizations := [7]; teams := [10];
               has_perm := fun _ => true; is_admin := false |}.
Proof.
  apply (global_permission_only_widens sample_db
           {| user_id := 6; organizations := [7]; teams := [10];
              has_perm := fun _ => false; is_admin := false |}
           {| user_id := 6; organizations := [7]; teams := [10];
              has_perm := fun _ => true; is_admin := false |} alpha);
    [reflexivity | reflexivity | reflexivity | vm_compute; set_solver].
Defined.

(** ** More on the admin serializer *)

Section SerializerCreate.

Implicit Types (w : World) (m : ProjectMembership) (td : TeamData).






End SerializerCreate.

Section SerializerUpdateMore.

Implicit Types (w : World) (m : ProjectMembership) (td : TeamData).







End SerializerUpdateMore.






(** ** The upsert of the admin serializer *)

Section Upsert.

Implicit Types (w : World) (d : Database) (m : ProjectMembership) (td : TeamData).









End Upsert.


